(** * Build-time checks of [mapi-scrubbed/testbuild.cpp]

    The translation unit includes [MAPIConstants.h] and [<cstdint>] and then
    states six [static_assert]s over constants of the header.  It defines no
    function and no object: building it is the whole behaviour.

    The development has three layers:
    - [Cxx]: the integer conversions of C++ that the asserted expressions use
      (literal typing, casts, unary minus, the usual arithmetic conversions
      that [==] applies to its operands);
    - the expressions and the translation unit itself, [testbuild], together
      with [compile], which evaluates every [static_assert] against a header;
    - the properties of the check. *)

From Stdlib Require Import ZArith List Bool Lia String Permutation.
Import ListNotations.
Local Open Scope Z_scope.

(** ** Integer values of constant expressions *)

Module Cxx.

(** Integer types after integral promotion, told apart by signedness and
    width.  The MAPI headers are Windows headers: [int] and [long] are both 32
    bits wide there ([Int32]), [unsigned int] and [unsigned long] are
    [UInt32], [long long] is [Int64] and [unsigned long long] is [UInt64]. *)
Inductive int_type : Set :=
| Int32
| UInt32
| Int64
| UInt64.

Definition is_signed (t : int_type) : bool :=
  match t with
  | Int32 | Int64 => true
  | UInt32 | UInt64 => false
  end.

Definition width (t : int_type) : Z :=
  match t with
  | Int32 | UInt32 => 32
  | Int64 | UInt64 => 64
  end.

Definition min_value (t : int_type) : Z :=
  if is_signed t then - 2 ^ (width t - 1) else 0.

Definition max_value (t : int_type) : Z :=
  if is_signed t then 2 ^ (width t - 1) - 1 else 2 ^ width t - 1.

Definition representable (t : int_type) (v : Z) : bool :=
  (min_value t <=? v) && (v <=? max_value t).

(** Conversion of an integer to type [t]: the unique value of [t] congruent
    to [v] modulo [2 ^ width t]. *)
Definition wrap (t : int_type) (v : Z) : Z :=
  let m := v mod 2 ^ width t in
  if is_signed t && (2 ^ (width t - 1) <=? m) then m - 2 ^ width t else m.

(** A typed integer value. *)
Record value : Set := Value { type_of : int_type; num : Z }.

Definition well_typed (c : value) : Prop :=
  representable (type_of c) (num c) = true.

(** [(T)e] and [static_cast<T>(e)] on integers. *)
Definition convert (t : int_type) (c : value) : value :=
  Value t (wrap t (num c)).

(** The usual arithmetic conversions on two promoted integer types: the wider
    type wins; at equal width the unsigned one does. *)
Definition common_type (a b : int_type) : int_type :=
  match a, b with
  | UInt64, _ | _, UInt64 => UInt64
  | Int64, _ | _, Int64 => Int64
  | UInt32, _ | _, UInt32 => UInt32
  | Int32, Int32 => Int32
  end.

(** [a == b]: both operands are converted to their common type first. *)
Definition equal (a b : value) : bool :=
  let t := common_type (type_of a) (type_of b) in
  num (convert t a) =? num (convert t b).

(** Unary minus, computed in the operand's type. *)
Definition negate (a : value) : value :=
  Value (type_of a) (wrap (type_of a) (- num a)).

(** A literal has the first type of its candidate list that represents it. *)
Fixpoint first_fit (candidates : list int_type) (fallback : int_type) (n : Z)
  : int_type :=
  match candidates with
  | [] => fallback
  | t :: rest => if representable t n then t else first_fit rest fallback n
  end.

(** Hexadecimal literal without suffix: [int], [unsigned int], [long],
    [unsigned long], [long long], [unsigned long long]; [long] and
    [unsigned long] never come first, being as wide as [int]. *)
Definition hex_literal (n : Z) : value :=
  let t := first_fit [Int32; UInt32; Int64] UInt64 n in
  Value t (wrap t n).

(** Decimal literal without suffix: [int], [long], [long long]. *)
Definition dec_literal (n : Z) : value :=
  let t := first_fit [Int32] Int64 n in
  Value t (wrap t n).

(** The result of a comparison, promoted. *)
Definition of_bool (b : bool) : value :=
  Value Int32 (if b then 1 else 0).

(** Contextual conversion to [bool]. *)
Definition truth (c : value) : bool :=
  negb (num c =? 0).

End Cxx.

Import Cxx.

(** ** The constants and the header *)

(** The names of [MAPIConstants.h] that the file mentions. *)
Inductive constant : Set :=
| MAPI_E_NOT_FOUND
| PT_MV_BINARY
| PR_CONVERSATION_TOPIC_A
| BOOKMARK_BEGINNING
| TABLE_SORT_CATEG_MAX
| PRIO_NONURGENT.

(** The header is not part of the file: it is what the file is checked
    against.  It gives every name an integer constant. *)
Definition header : Set := constant -> value.

Definition well_formed (h : header) : Prop :=
  forall c, well_typed (h c).

(** Modelled from the spec: the typedef [HRESULT] comes with the header; the
    glossary gives it as a signed 32-bit status code. *)
Definition HRESULT : int_type := Int32.

(** [std::int32_t] of [<cstdint>]. *)
Definition int32_t : int_type := Int32.

(** What kind of MAPI constant a name stands for, as its prefix tells:
    [MAPI_E_] an error code, [PT_] a property type, [PR_] a property tag,
    [BOOKMARK_] a table bookmark, [TABLE_SORT_] a table-sort category bound,
    [PRIO_] a message priority. *)
Inductive kind : Set :=
| ErrorCode
| PropertyType
| PropertyTag
| Bookmark
| TableSortCategory
| Priority.

Definition kind_of (c : constant) : kind :=
  match c with
  | MAPI_E_NOT_FOUND => ErrorCode
  | PT_MV_BINARY => PropertyType
  | PR_CONVERSATION_TOPIC_A => PropertyTag
  | BOOKMARK_BEGINNING => Bookmark
  | TABLE_SORT_CATEG_MAX => TableSortCategory
  | PRIO_NONURGENT => Priority
  end.

(** ** Expressions and the translation unit *)

Inductive expr : Set :=
| Name (c : constant)
| Hex (n : Z)
| Dec (n : Z)
| Minus (e : expr)
| CastTo (t : int_type) (e : expr)
| Equal (l r : expr).

Fixpoint eval (h : header) (e : expr) : value :=
  match e with
  | Name c => h c
  | Hex n => hex_literal n
  | Dec n => dec_literal n
  | Minus e1 => negate (eval h e1)
  | CastTo t e1 => convert t (eval h e1)
  | Equal l r => of_bool (equal (eval h l) (eval h r))
  end.

Inductive declaration : Set :=
| Include (file : string)
| StaticAssert (condition : expr).

(** The file, line by line. *)
Definition testbuild : list declaration :=
  [ Include "MAPIConstants.h";
    Include "<cstdint>";
    StaticAssert (Equal (Name MAPI_E_NOT_FOUND) (CastTo HRESULT (Hex 0x8004010F)));
    StaticAssert (Equal (Name PT_MV_BINARY) (Hex 0x1102));
    StaticAssert (Equal (Name PR_CONVERSATION_TOPIC_A) (Hex 0x0070001E));
    StaticAssert (Equal (Name BOOKMARK_BEGINNING) (Dec 0));
    StaticAssert (Equal (Name TABLE_SORT_CATEG_MAX) (Dec 4));
    StaticAssert (Equal (CastTo int32_t (Name PRIO_NONURGENT)) (Minus (Dec 1))) ].

(** ** Building the file *)

Fixpoint assertions (tu : list declaration) : list expr :=
  match tu with
  | [] => []
  | Include _ :: rest => assertions rest
  | StaticAssert e :: rest => e :: assertions rest
  end.

Definition holds (h : header) (e : expr) : bool :=
  truth (eval h e).

(** The conditions the compiler reports: those that evaluate to false. *)
Definition diagnostics (h : header) (tu : list declaration) : list expr :=
  filter (fun e => negb (holds h e)) (assertions tu).

Inductive outcome : Set :=
| BuildOk
| BuildFailed (failed : list expr).

Definition compile (h : header) (tu : list declaration) : outcome :=
  match diagnostics h tu with
  | [] => BuildOk
  | failed => BuildFailed failed
  end.

(** ** Reading the assertions *)

Fixpoint names (e : expr) : list constant :=
  match e with
  | Name c => [c]
  | Hex _ | Dec _ => []
  | Minus e1 | CastTo _ e1 => names e1
  | Equal l r => names l ++ names r
  end.

Definition constant_eqb (a b : constant) : bool :=
  match a, b with
  | MAPI_E_NOT_FOUND, MAPI_E_NOT_FOUND
  | PT_MV_BINARY, PT_MV_BINARY
  | PR_CONVERSATION_TOPIC_A, PR_CONVERSATION_TOPIC_A
  | BOOKMARK_BEGINNING, BOOKMARK_BEGINNING
  | TABLE_SORT_CATEG_MAX, TABLE_SORT_CATEG_MAX
  | PRIO_NONURGENT, PRIO_NONURGENT => true
  | _, _ => false
  end.

(** The constants the file checks, in the order of its assertions. *)
Definition checked_constants (tu : list declaration) : list constant :=
  flat_map names (assertions tu).

(** The operand an assertion checks: a name, or a name under one cast. *)
Definition checked_operand (e : expr) : option constant :=
  match e with
  | Name c | CastTo _ (Name c) => Some c
  | _ => None
  end.

(** How an assertion writes the constant it compares: the bare name, or the
    name under a cast. *)
Inductive operand_form : Set :=
| Bare
| Cast (t : int_type).

(** How an assertion writes the value it expects: a literal, a literal under
    a cast, or a literal under a minus sign. *)
Inductive value_form : Set :=
| Literal
| CastLiteral (t : int_type)
| NegatedLiteral.

Definition is_literal_token (e : expr) : bool :=
  match e with
  | Hex _ | Dec _ => true
  | _ => false
  end.

Definition operand_form_of (e : expr) : option (constant * operand_form) :=
  match e with
  | Name c => Some (c, Bare)
  | CastTo t (Name c) => Some (c, Cast t)
  | _ => None
  end.

Definition value_form_of (e : expr) : option value_form :=
  match e with
  | Hex _ | Dec _ => Some Literal
  | CastTo t e1 => if is_literal_token e1 then Some (CastLiteral t) else None
  | Minus e1 => if is_literal_token e1 then Some NegatedLiteral else None
  | _ => None
  end.

(** The form of a comparison of a constant with an expected value: which
    constant, how it is written, how the value is written.  Anything else has
    no form. *)
Definition form_of (e : expr)
  : option (constant * operand_form * value_form) :=
  match e with
  | Equal l r =>
      match operand_form_of l, value_form_of r with
      | Some (c, o), Some v => Some (c, o, v)
      | _, _ => None
      end
  | _ => None
  end.

(** The right-hand sides the file compares constant [c] with. *)
Fixpoint expected (asserts : list expr) (c : constant) : list expr :=
  match asserts with
  | [] => []
  | Equal l r :: rest =>
      match checked_operand l with
      | Some c' => if constant_eqb c c' then r :: expected rest c
                   else expected rest c
      | None => expected rest c
      end
  | _ :: rest => expected rest c
  end.

(** A sample header: the six constants with the values the file expects,
    the status code typed as an [HRESULT], the priority as a [long] and the
    others as unsigned 32-bit numbers. *)
Definition sample_header : header :=
  fun c =>
    match c with
    | MAPI_E_NOT_FOUND => Value HRESULT (-2147221233)
    | PT_MV_BINARY => Value UInt32 0x1102
    | PR_CONVERSATION_TOPIC_A => Value UInt32 0x0070001E
    | BOOKMARK_BEGINNING => Value UInt32 0
    | TABLE_SORT_CATEG_MAX => Value UInt32 4
    | PRIO_NONURGENT => Value Int32 (-1)
    end.

(** The sample header after one value has drifted. *)
Definition drifted_header : header :=
  fun c =>
    match c with
    | TABLE_SORT_CATEG_MAX => Value UInt32 5
    | _ => sample_header c
    end.

(** The sample header with the status code given as the number [n] of type
    [t]. *)
Definition with_status (t : int_type) (n : Z) : header :=
  fun c =>
    match c with
    | MAPI_E_NOT_FOUND => Value t n
    | _ => sample_header c
    end.

(** The bits [lo .. lo + len - 1] of [v], as a number. *)
Definition bit_field (v lo len : Z) : Z :=
  Z.land (Z.shiftr v lo) (Z.ones len).

(** The kinds of the constants a translation unit checks. *)
Definition checked_kinds (tu : list declaration) : list kind :=
  map kind_of (checked_constants tu).

(** The inventory as the specification words it: an error code, a
    property-type tag, two property-tag identifiers, a bookmark value, a
    table-sort category maximum and a priority value. *)
Definition spec_checked_kinds : list kind :=
  [ErrorCode; PropertyType; PropertyTag; PropertyTag; Bookmark;
   TableSortCategory; Priority].

(** The header [h] with the definition of [c] replaced by [x]. *)
Definition redefine (h : header) (c : constant) (x : value) : header :=
  fun c' => if constant_eqb c c' then x else h c'.

(** Whether expression [e] mentions constant [c]. *)
Definition mentions (c : constant) (e : expr) : bool :=
  existsb (constant_eqb c) (names e).

(** The assertions of a translation unit that mention [c]. *)
Definition assertions_about (tu : list declaration) (c : constant)
  : list expr :=
  filter (mentions c) (assertions tu).

(** The sample header with the priority given as the 64-bit number
    0xFFFFFFFF. *)
Definition wide_priority_header : header :=
  redefine sample_header PRIO_NONURGENT (Value Int64 0xFFFFFFFF).

(** The form the specification gives every assertion, [C == V]: a named
    constant, written bare, compared with an expected value. *)
Definition spec_name_equals_value (e : expr) : Prop :=
  exists (c : constant) (v : value_form), form_of e = Some (c, Bare, v).

(** The failure rule as the specification words it: a constant that does not
    equal the value the file expects of it fails the build. *)
Definition spec_mismatch_fails_build : Prop :=
  forall (h : header) (c : constant) (v : expr),
    well_formed h ->
    In v (expected (assertions testbuild) c) ->
    holds h (Equal (Name c) v) = false ->
    compile h testbuild <> BuildOk.

(** ** Conversions *)

Section Conversions.

Lemma representable_iff (t : int_type) (v : Z) :
  representable t v = true <-> min_value t <= v <= max_value t.
Proof.
  unfold representable. rewrite andb_true_iff, !Z.leb_le. tauto.
Qed.

Ltac unfold_wrap :=
  cbv [wrap min_value max_value is_signed width andb]; cbn -[Z.modulo];
  repeat match goal with
    | |- context [?a <=? ?b] => destruct (Z.leb_spec a b)
    | H : context [?a <=? ?b] |- _ => destruct (Z.leb_spec a b)
    end.

Lemma wrap_representable (t : int_type) (v : Z) :
  representable t v = true -> wrap t v = v.
Proof.
  rewrite representable_iff.
  destruct t; unfold_wrap; intros [Hlo Hhi];
    Z.to_euclidean_division_equations; lia.
Qed.

Lemma wrap_in_range (t : int_type) (v : Z) :
  representable t (wrap t v) = true.
Proof.
  rewrite representable_iff.
  destruct t; unfold_wrap; Z.to_euclidean_division_equations; lia.
Qed.

(** Converting to 32 bits forgets any conversion made on the way. *)
Lemma wrap_int32_wrap (t : int_type) (v : Z) :
  wrap Int32 (wrap t v) = wrap Int32 v.
Proof.
  destruct t; unfold_wrap; Z.to_euclidean_division_equations; lia.
Qed.

Lemma wrap_mod32 (v : Z) :
  wrap Int32 v mod 2 ^ 32 = v mod 2 ^ 32.
Proof.
  unfold_wrap; Z.to_euclidean_division_equations; lia.
Qed.

Lemma common_type_int32 (t : int_type) :
  common_type t Int32 = t.
Proof. destruct t; reflexivity. Qed.

(** Comparing a well-typed value with an [int]: the [int] is converted to the
    value's type. *)
Lemma equal_int32 (c : value) (v : Z) :
  well_typed c ->
  equal c (Value Int32 v) = (num c =? wrap (type_of c) v).
Proof.
  intros Hc. unfold equal. cbn [type_of num convert].
  rewrite common_type_int32.
  now rewrite (wrap_representable _ _ Hc).
Qed.

Lemma small_representable (t : int_type) (v : Z) :
  0 <= v <= max_value Int32 -> representable t v = true.
Proof.
  rewrite representable_iff.
  destruct t; cbv [min_value max_value is_signed width]; cbn; lia.
Qed.

(** A well-typed value that compares equal to a non-negative [int] is that
    number, whatever its type. *)
Lemma equal_small (c : value) (v : Z) :
  well_typed c -> 0 <= v <= max_value Int32 ->
  equal c (Value Int32 v) = true <-> num c = v.
Proof.
  intros Hc Hv.
  rewrite (equal_int32 _ _ Hc), Z.eqb_eq.
  now rewrite (wrap_representable _ _ (small_representable (type_of c) v Hv)).
Qed.

(** A well-typed value that compares equal to an [int] converts to it. *)
Lemma equal_converts (c : value) (v : Z) :
  well_typed c -> representable Int32 v = true ->
  equal c (Value Int32 v) = true -> num (convert Int32 c) = v.
Proof.
  intros Hc Hv.
  rewrite (equal_int32 _ _ Hc), Z.eqb_eq. intros E.
  cbn [convert num]. rewrite E.
  now rewrite wrap_int32_wrap, (wrap_representable _ _ Hv).
Qed.

End Conversions.

(** ** Building a translation unit *)

Section Building.

Variable h : header.

Lemma holds_Equal (l r : expr) :
  holds h (Equal l r) = equal (eval h l) (eval h r).
Proof.
  unfold holds, truth. cbn [eval].
  destruct (equal (eval h l) (eval h r)); reflexivity.
Qed.

Lemma diagnostics_In (tu : list declaration) (e : expr) :
  In e (diagnostics h tu) <-> In e (assertions tu) /\ holds h e = false.
Proof.
  unfold diagnostics. rewrite filter_In, negb_true_iff. tauto.
Qed.

(** [compile] has two outcomes, told apart by the diagnostics. *)
Lemma compile_cases (tu : list declaration) :
  (diagnostics h tu = [] /\ compile h tu = BuildOk) \/
  (diagnostics h tu <> [] /\ compile h tu = BuildFailed (diagnostics h tu)).
Proof.
  unfold compile. destruct (diagnostics h tu) as [|e l].
  - left. split; reflexivity.
  - right. split; [discriminate | reflexivity].
Qed.

Lemma compile_ok_iff (tu : list declaration) :
  compile h tu = BuildOk <-> forallb (holds h) (assertions tu) = true.
Proof.
  unfold compile, diagnostics.
  induction (assertions tu) as [|e l IH]; cbn [filter forallb].
  - tauto.
  - destruct (holds h e); cbn [negb andb].
    + exact IH.
    + split; discriminate.
Qed.

Lemma compile_failed_iff (tu : list declaration) :
  compile h tu <> BuildOk <->
  exists e, In e (assertions tu) /\ holds h e = false.
Proof.
  split.
  - intros Hne. destruct (compile_cases tu) as [[_ Hok] | [Hd _]].
    + contradiction.
    + destruct (diagnostics h tu) as [|e l] eqn:E; [contradiction|].
      exists e. apply diagnostics_In. rewrite E. now left.
  - intros [e He] Hok. apply diagnostics_In in He.
    destruct (compile_cases tu) as [[Hd _] | [_ Hf]].
    + rewrite Hd in He. exact He.
    + congruence.
Qed.

(** The six conditions of [testbuild], with their right-hand sides
    evaluated. *)
Lemma testbuild_ok_iff :
  compile h testbuild = BuildOk <->
  equal (h MAPI_E_NOT_FOUND) (Value HRESULT (-2147221233)) = true /\
  equal (h PT_MV_BINARY) (Value Int32 0x1102) = true /\
  equal (h PR_CONVERSATION_TOPIC_A) (Value Int32 0x0070001E) = true /\
  equal (h BOOKMARK_BEGINNING) (Value Int32 0) = true /\
  equal (h TABLE_SORT_CATEG_MAX) (Value Int32 4) = true /\
  equal (convert int32_t (h PRIO_NONURGENT)) (Value Int32 (-1)) = true.
Proof.
  rewrite compile_ok_iff.
  cbn [testbuild assertions forallb].
  rewrite !holds_Equal, !andb_true_iff. cbn [eval].
  change (convert HRESULT (hex_literal 0x8004010F))
    with (Value HRESULT (-2147221233)).
  change (hex_literal 0x1102) with (Value Int32 0x1102).
  change (hex_literal 0x0070001E) with (Value Int32 0x0070001E).
  change (dec_literal 0) with (Value Int32 0).
  change (dec_literal 4) with (Value Int32 4).
  change (negate (dec_literal 1)) with (Value Int32 (-1)).
  tauto.
Qed.

End Building.

(** ** The check as a whole *)

(** The sample header builds; a drifted table-sort maximum is reported. *)
Example sample_header_builds :
  compile sample_header testbuild = BuildOk.
Proof. reflexivity. Qed.

Example drifted_header_fails :
  compile drifted_header testbuild =
  BuildFailed [Equal (Name TABLE_SORT_CATEG_MAX) (Dec 4)].
Proof. reflexivity. Qed.

(** [==] converts its operands to a common type: an unsigned 32-bit
    0x8004010F compares equal to the [HRESULT]; the same number as a 64-bit
    signed constant does not. *)
Example unsigned_status_builds :
  compile (with_status UInt32 0x8004010F) testbuild = BuildOk.
Proof. reflexivity. Qed.

Example wide_status_fails :
  compile (with_status Int64 0x8004010F) testbuild =
  BuildFailed
    [Equal (Name MAPI_E_NOT_FOUND) (CastTo HRESULT (Hex 0x8004010F))].
Proof. reflexivity. Qed.

(** C2, as the specification words it, does not hold: its inventory lists
    seven constants (two of them property-tag identifiers), the file checks
    six, so the two cannot be matched up. *)
Lemma checked_kinds_differ_from_spec_inventory :
  ~ Permutation (checked_kinds testbuild) spec_checked_kinds.
Proof.
  intros P. apply Permutation_length in P. discriminate P.
Qed.

(** C2, amended: the constants checked are exactly six, all different: one
    error code, one property-type tag, one property-tag identifier, one
    bookmark value expected to be 0, one table-sort category maximum expected
    to be 4, and one priority value which, converted to a signed 32-bit
    integer, is expected to be -1. *)
Theorem checked_constants_inventory (h : header) :
  checked_constants testbuild =
    [MAPI_E_NOT_FOUND; PT_MV_BINARY; PR_CONVERSATION_TOPIC_A;
     BOOKMARK_BEGINNING; TABLE_SORT_CATEG_MAX; PRIO_NONURGENT] /\
  checked_kinds testbuild =
    [ErrorCode; PropertyType; PropertyTag; Bookmark; TableSortCategory;
     Priority] /\
  NoDup (checked_constants testbuild) /\
  map (eval h) (expected (assertions testbuild) BOOKMARK_BEGINNING) =
    [Value Int32 0] /\
  map (eval h) (expected (assertions testbuild) TABLE_SORT_CATEG_MAX) =
    [Value Int32 4] /\
  map (eval h) (expected (assertions testbuild) PRIO_NONURGENT) =
    [Value int32_t (-1)] /\
  In (Equal (CastTo int32_t (Name PRIO_NONURGENT)) (Minus (Dec 1)))
     (assertions testbuild).
Proof.
  repeat split; try reflexivity.
  - cbn. repeat constructor; cbn; intuition discriminate.
  - cbn. tauto.
Qed.

(** C10: the value the error code is compared with is an [HRESULT] whose 32
    bits are 0x8004010F: bit 31, the failure bit, is set, the facility field in
    bits 16 to 26 is 4, and the low 16 bits are 0x010F. *)
Theorem expected_error_code_fields (h : header) :
  exists v : value,
    map (eval h) (expected (assertions testbuild) MAPI_E_NOT_FOUND) = [v] /\
    type_of v = HRESULT /\
    num v mod 2 ^ 32 = 0x8004010F /\
    Z.testbit (num v mod 2 ^ 32) 31 = true /\
    bit_field (num v mod 2 ^ 32) 16 11 = 0x0004 /\
    bit_field (num v mod 2 ^ 32) 0 16 = 0x010F.
Proof.
  exists (Value HRESULT (-2147221233)).
  split; [reflexivity |].
  split; [reflexivity |].
  change (num (Value HRESULT (-2147221233)) mod 2 ^ 32) with 0x8004010F.
  unfold bit_field. repeat split.
Qed.

(** ** Headers the file builds against *)

(** C4: against a header the file builds with, the error code
    [MAPI_E_NOT_FOUND] is the 32-bit status value 0x8004010F: its low 32 bits
    are 0x8004010F and, read as an [HRESULT] (a signed 32-bit integer), it is
    -2147221233, a negative number; that is its value outright when the header
    types it as an [HRESULT].  The value it is compared with is the
    [HRESULT] -2147221233. *)
Theorem error_code_is_negative_hresult
  (h : header) (h_well_formed : well_formed h)
  (h_builds : compile h testbuild = BuildOk) :
  map (eval h) (expected (assertions testbuild) MAPI_E_NOT_FOUND) =
    [Value HRESULT (-2147221233)] /\
  num (h MAPI_E_NOT_FOUND) mod 2 ^ 32 = 0x8004010F /\
  num (convert HRESULT (h MAPI_E_NOT_FOUND)) = -2147221233 /\
  num (convert HRESULT (h MAPI_E_NOT_FOUND)) < 0 /\
  (type_of (h MAPI_E_NOT_FOUND) = HRESULT ->
   num (h MAPI_E_NOT_FOUND) = -2147221233).
Proof.
  pose proof (proj1 (testbuild_ok_iff h) h_builds) as (E & _).
  apply equal_converts in E; [| apply h_well_formed | reflexivity].
  split; [reflexivity |].
  split.
  - rewrite <- (wrap_mod32 (num (h MAPI_E_NOT_FOUND))).
    change (wrap Int32 (num (h MAPI_E_NOT_FOUND)))
      with (num (convert Int32 (h MAPI_E_NOT_FOUND))).
    rewrite E. reflexivity.
  - unfold HRESULT. rewrite E.
    split; [reflexivity | split; [reflexivity |]].
    intros Ht. rewrite <- E. cbn [convert num].
    symmetry. apply wrap_representable. rewrite <- Ht. apply h_well_formed.
Qed.

(** C5: against a header the file builds with, [PRIO_NONURGENT] cast to a
    signed 32-bit integer is -1. *)
Theorem priority_cast_is_minus_one
  (h : header) (h_builds : compile h testbuild = BuildOk) :
  num (convert int32_t (h PRIO_NONURGENT)) = -1.
Proof.
  pose proof (proj1 (testbuild_ok_iff h) h_builds) as (_ & _ & _ & _ & _ & E).
  rewrite equal_int32 in E by apply wrap_in_range.
  now apply Z.eqb_eq in E.
Qed.

(** C6: against a header the file builds with, [BOOKMARK_BEGINNING] is 0. *)
Theorem bookmark_beginning_is_zero
  (h : header) (h_well_formed : well_formed h)
  (h_builds : compile h testbuild = BuildOk) :
  num (h BOOKMARK_BEGINNING) = 0.
Proof.
  pose proof (proj1 (testbuild_ok_iff h) h_builds) as (_ & _ & _ & E & _).
  apply equal_small in E; [exact E | apply h_well_formed | cbn; lia].
Qed.

(** C7: against a header the file builds with, [TABLE_SORT_CATEG_MAX] is
    4. *)
Theorem table_sort_categ_max_is_four
  (h : header) (h_well_formed : well_formed h)
  (h_builds : compile h testbuild = BuildOk) :
  num (h TABLE_SORT_CATEG_MAX) = 4.
Proof.
  pose proof (proj1 (testbuild_ok_iff h) h_builds) as (_ & _ & _ & _ & E & _).
  apply equal_small in E; [exact E | apply h_well_formed | cbn; lia].
Qed.

(** C8: the property type the file checks is [PT_MV_BINARY], compared with
    0x1102, which is 4354; against a header the file builds with, that is its
    value, and the multi-valued flag 0x1000 is set in it. *)
Theorem property_type_is_multivalued_binary
  (h : header) (h_well_formed : well_formed h)
  (h_builds : compile h testbuild = BuildOk) :
  checked_kinds testbuild =
    [ErrorCode; PropertyType; PropertyTag; Bookmark; TableSortCategory;
     Priority] /\
  kind_of PT_MV_BINARY = PropertyType /\
  map (eval h) (expected (assertions testbuild) PT_MV_BINARY) =
    [Value Int32 4354] /\
  num (h PT_MV_BINARY) = 0x1102 /\
  Z.land (num (h PT_MV_BINARY)) 0x1000 = 0x1000.
Proof.
  pose proof (proj1 (testbuild_ok_iff h) h_builds) as (_ & E & _).
  apply equal_small in E; [| apply h_well_formed | cbn; lia].
  rewrite E. repeat split; reflexivity.
Qed.

(** C9: the property tag the file checks is [PR_CONVERSATION_TOPIC_A],
    compared with 0x0070001E; against a header the file builds with, that is
    its value: the low 16 bits, the property type, are 0x001E and the high 16
    bits, the property identifier, are 0x0070. *)
Theorem property_tag_is_conversation_topic
  (h : header) (h_well_formed : well_formed h)
  (h_builds : compile h testbuild = BuildOk) :
  kind_of PR_CONVERSATION_TOPIC_A = PropertyTag /\
  map (eval h) (expected (assertions testbuild) PR_CONVERSATION_TOPIC_A) =
    [Value Int32 0x0070001E] /\
  num (h PR_CONVERSATION_TOPIC_A) = 0x0070001E /\
  bit_field (num (h PR_CONVERSATION_TOPIC_A)) 0 16 = 0x001E /\
  bit_field (num (h PR_CONVERSATION_TOPIC_A)) 16 16 = 0x0070.
Proof.
  pose proof (proj1 (testbuild_ok_iff h) h_builds) as (_ & _ & E & _).
  apply equal_small in E; [| apply h_well_formed | cbn; lia].
  rewrite E. repeat split; reflexivity.
Qed.

(** ** The results at the sample header *)

Lemma error_code_is_negative_hresult_witness :
  well_formed sample_header /\
  compile sample_header testbuild = BuildOk /\
  num (sample_header MAPI_E_NOT_FOUND) mod 2 ^ 32 = 0x8004010F /\
  num (convert HRESULT (sample_header MAPI_E_NOT_FOUND)) < 0.
Proof.
  assert (W : well_formed sample_header)
    by (intros c; destruct c; reflexivity).
  assert (B : compile sample_header testbuild = BuildOk) by reflexivity.
  destruct (error_code_is_negative_hresult sample_header W B)
    as (_ & Hbits & _ & Hneg & _).
  exact (conj W (conj B (conj Hbits Hneg))).
Defined.

Lemma priority_cast_is_minus_one_witness :
  compile sample_header testbuild = BuildOk /\
  num (convert int32_t (sample_header PRIO_NONURGENT)) = -1.
Proof.
  assert (B : compile sample_header testbuild = BuildOk) by reflexivity.
  exact (conj B (priority_cast_is_minus_one sample_header B)).
Defined.

Lemma bookmark_beginning_is_zero_witness :
  well_formed sample_header /\
  compile sample_header testbuild = BuildOk /\
  num (sample_header BOOKMARK_BEGINNING) = 0.
Proof.
  assert (W : well_formed sample_header)
    by (intros c; destruct c; reflexivity).
  assert (B : compile sample_header testbuild = BuildOk) by reflexivity.
  exact (conj W (conj B (bookmark_beginning_is_zero sample_header W B))).
Defined.

Lemma table_sort_categ_max_is_four_witness :
  well_formed sample_header /\
  compile sample_header testbuild = BuildOk /\
  num (sample_header TABLE_SORT_CATEG_MAX) = 4.
Proof.
  assert (W : well_formed sample_header)
    by (intros c; destruct c; reflexivity).
  assert (B : compile sample_header testbuild = BuildOk) by reflexivity.
  exact (conj W (conj B (table_sort_categ_max_is_four sample_header W B))).
Defined.

Lemma property_type_is_multivalued_binary_witness :
  well_formed sample_header /\
  compile sample_header testbuild = BuildOk /\
  num (sample_header PT_MV_BINARY) = 0x1102 /\
  Z.land (num (sample_header PT_MV_BINARY)) 0x1000 = 0x1000.
Proof.
  assert (W : well_formed sample_header)
    by (intros c; destruct c; reflexivity).
  assert (B : compile sample_header testbuild = BuildOk) by reflexivity.
  destruct (property_type_is_multivalued_binary sample_header W B)
    as (_ & _ & _ & Hv & Hflag).
  exact (conj W (conj B (conj Hv Hflag))).
Defined.

Lemma property_tag_is_conversation_topic_witness :
  well_formed sample_header /\
  compile sample_header testbuild = BuildOk /\
  bit_field (num (sample_header PR_CONVERSATION_TOPIC_A)) 0 16 = 0x001E /\
  bit_field (num (sample_header PR_CONVERSATION_TOPIC_A)) 16 16 = 0x0070.
Proof.
  assert (W : well_formed sample_header)
    by (intros c; destruct c; reflexivity).
  assert (B : compile sample_header testbuild = BuildOk) by reflexivity.
  destruct (property_tag_is_conversation_topic sample_header W B)
    as (_ & _ & _ & Hlow & Hhigh).
  exact (conj W (conj B (conj Hlow Hhigh))).
Defined.

(** ** What the check pins down, and what it lets through *)

Section Pinning.

Ltac by_cases_on_wrap :=
  cbv [wrap min_value max_value is_signed width andb] in *;
  cbn -[Z.modulo] in *;
  repeat match goal with
    | |- context [?a <=? ?b] => destruct (Z.leb_spec a b)
    | H : context [?a <=? ?b] |- _ => destruct (Z.leb_spec a b)
    end;
  Z.to_euclidean_division_equations; lia.

Lemma wrap_int32_minus_one (v : Z) :
  wrap Int32 v = -1 <-> v mod 2 ^ 32 = 0xFFFFFFFF.
Proof. split; intros E; by_cases_on_wrap. Qed.

(** At 32 bits a conversion keeps the residue modulo [2 ^ 32], and nothing
    else. *)
Lemma wrap_eq_32 (t : int_type) (x y : Z) :
  width t = 32 ->
  wrap t x = wrap t y <-> x mod 2 ^ 32 = y mod 2 ^ 32.
Proof.
  destruct t; cbn [width]; intros W; try discriminate W;
    split; intros E; by_cases_on_wrap.
Qed.

Lemma wrap_int32_injective (t : int_type) (x y : Z) :
  width t = 32 ->
  representable t x = true -> representable t y = true ->
  wrap Int32 x = wrap Int32 y -> x = y.
Proof.
  rewrite !representable_iff.
  destruct t; cbn [width]; intros W; try discriminate W;
    intros Hx Hy E; by_cases_on_wrap.
Qed.

Lemma constant_eqb_eq (a b : constant) :
  constant_eqb a b = true <-> a = b.
Proof. destruct a, b; cbn; split; congruence. Qed.

(** The value of an expression depends on the header only through the
    constants the expression mentions. *)
Lemma eval_redefine (h : header) (c : constant) (x : value) (e : expr) :
  mentions c e = false -> eval (redefine h c x) e = eval h e.
Proof.
  unfold mentions.
  induction e as [c' | n | n | e IH | t e IH | l IHl r IHr];
    cbn [names eval existsb]; intros M.
  - unfold redefine. rewrite orb_false_r in M. now rewrite M.
  - reflexivity.
  - reflexivity.
  - now rewrite IH.
  - now rewrite IH.
  - rewrite existsb_app, orb_false_iff in M. destruct M as [Ml Mr].
    now rewrite IHl, IHr.
Qed.

Lemma failures_after_redefine
  (h : header) (c : constant) (x : value) (l : list expr) :
  forallb (holds h) l = true ->
  filter (fun e => negb (holds (redefine h c x) e)) l =
  filter (fun e => negb (holds (redefine h c x) e)) (filter (mentions c) l).
Proof.
  induction l as [|e l IH]; cbn [forallb filter]; [reflexivity |].
  rewrite andb_true_iff. intros [He Hl].
  destruct (mentions c e) eqn:M; cbn [filter].
  - now rewrite (IH Hl).
  - unfold holds at 1. rewrite (eval_redefine _ _ _ _ M).
    fold (holds h e). rewrite He. cbn [negb]. exact (IH Hl).
Qed.

(** The file builds against a well-formed header exactly when the header
    gives the six constants these numbers: the status code is -2147221233 in
    a signed type, 0x8004010F as an unsigned 32-bit and 0xFFFFFFFF8004010F as
    an unsigned 64-bit number; the four constants compared as written have
    the expected number in whatever type; of the priority only the low 32
    bits are fixed, all ones. *)
Theorem testbuild_pins_values (h : header) (h_well_formed : well_formed h) :
  compile h testbuild = BuildOk <->
  num (h MAPI_E_NOT_FOUND) =
    match type_of (h MAPI_E_NOT_FOUND) with
    | Int32 | Int64 => -2147221233
    | UInt32 => 0x8004010F
    | UInt64 => 0xFFFFFFFF8004010F
    end /\
  num (h PT_MV_BINARY) = 0x1102 /\
  num (h PR_CONVERSATION_TOPIC_A) = 0x0070001E /\
  num (h BOOKMARK_BEGINNING) = 0 /\
  num (h TABLE_SORT_CATEG_MAX) = 4 /\
  num (h PRIO_NONURGENT) mod 2 ^ 32 = 0xFFFFFFFF.
Proof.
  rewrite testbuild_ok_iff.
  rewrite (equal_int32 (h MAPI_E_NOT_FOUND)) by apply h_well_formed.
  rewrite (equal_int32 (convert int32_t (h PRIO_NONURGENT)))
    by apply wrap_in_range.
  rewrite !equal_small by (try apply h_well_formed; cbn; lia).
  rewrite !Z.eqb_eq.
  cbn [convert num type_of].
  rewrite <- wrap_int32_minus_one.
  change (wrap int32_t (-1)) with (-1).
  replace (wrap (type_of (h MAPI_E_NOT_FOUND)) (-2147221233))
    with (match type_of (h MAPI_E_NOT_FOUND) with
          | Int32 | Int64 => -2147221233
          | UInt32 => 0x8004010F
          | UInt64 => 0xFFFFFFFF8004010F
          end)
    by (destruct (type_of (h MAPI_E_NOT_FOUND)); reflexivity).
  reflexivity.
Qed.

(** Redefining one constant of a header a translation unit builds against
    can only break the assertions that mention this constant: the conditions
    reported afterwards are the failing ones among them, in their order. *)
Theorem redefinition_breaks_only_its_own_assertions
  (h : header) (tu : list declaration) (c : constant) (x : value)
  (h_builds : compile h tu = BuildOk) :
  diagnostics (redefine h c x) tu =
    filter (fun e => negb (holds (redefine h c x) e)) (assertions_about tu c)
  /\ incl (diagnostics (redefine h c x) tu) (assertions_about tu c).
Proof.
  apply compile_ok_iff in h_builds.
  assert (E : diagnostics (redefine h c x) tu =
              filter (fun e => negb (holds (redefine h c x) e))
                (assertions_about tu c))
    by (apply failures_after_redefine; exact h_builds).
  split; [exact E |].
  rewrite E. intros e He. apply filter_In in He. exact (proj1 He).
Qed.

Lemma equal_int32_drift (a b : value) (v : Z) :
  well_typed a -> well_typed b -> type_of a = type_of b ->
  num a <> num b ->
  equal a (Value Int32 v) = true -> equal b (Value Int32 v) = false.
Proof.
  intros Ha Hb Ht Hn.
  rewrite (equal_int32 _ _ Ha), (equal_int32 _ _ Hb), Ht, Z.eqb_eq.
  intros E. apply Z.eqb_neq. congruence.
Qed.

Lemma equal_cast_drift (a b : value) (v : Z) :
  well_typed a -> well_typed b -> type_of a = type_of b ->
  width (type_of b) = 32 -> num a <> num b ->
  equal (convert Int32 a) (Value Int32 v) = true ->
  equal (convert Int32 b) (Value Int32 v) = false.
Proof.
  intros Ha Hb Ht Hw Hn.
  rewrite !equal_int32 by apply wrap_in_range.
  cbn [convert num type_of]. rewrite Z.eqb_eq. intros E.
  apply Z.eqb_neq. intros E'. apply Hn.
  apply (wrap_int32_injective (type_of b)); try assumption.
  - rewrite <- Ht. exact Ha.
  - congruence.
Qed.

(** A drift of any one constant is caught, and reported by the assertion
    about that constant alone: when a header the file builds against has one
    constant redefined to another number of the same type, the build fails
    with exactly the assertion that mentions the constant.  For the priority
    this needs a 32-bit type, since its assertion converts to 32 bits
    first. *)
Theorem drift_is_reported_by_its_assertion
  (h : header) (c : constant) (x : value)
  (h_well_formed : well_formed h)
  (h_builds : compile h testbuild = BuildOk)
  (x_well_typed : well_typed x)
  (same_type : type_of x = type_of (h c))
  (other_number : num x <> num (h c))
  (priority_32 : c = PRIO_NONURGENT -> width (type_of x) = 32) :
  compile (redefine h c x) testbuild =
    BuildFailed (assertions_about testbuild c) /\
  List.length (assertions_about testbuild c) = 1%nat.
Proof.
  pose proof (proj1 (testbuild_ok_iff h) h_builds)
    as (E1 & E2 & E3 & E4 & E5 & E6).
  assert (D : diagnostics (redefine h c x) testbuild =
              filter (fun e => negb (holds (redefine h c x) e))
                (assertions_about testbuild c))
    by (apply failures_after_redefine, compile_ok_iff; exact h_builds).
  unfold compile. rewrite D. clear D.
  pose proof (h_well_formed c) as Hc.
  assert (Hn : num (h c) <> num x) by congruence.
  symmetry in same_type.
  destruct c; cbn [assertions_about testbuild assertions filter mentions
                   names existsb constant_eqb orb app];
    rewrite holds_Equal; cbn [eval redefine constant_eqb].
  - change (convert HRESULT (hex_literal 0x8004010F))
      with (Value Int32 (-2147221233)).
    rewrite (equal_int32_drift _ x _ Hc x_well_typed same_type Hn E1).
    split; reflexivity.
  - change (hex_literal 0x1102) with (Value Int32 0x1102).
    rewrite (equal_int32_drift _ x _ Hc x_well_typed same_type Hn E2).
    split; reflexivity.
  - change (hex_literal 0x0070001E) with (Value Int32 0x0070001E).
    rewrite (equal_int32_drift _ x _ Hc x_well_typed same_type Hn E3).
    split; reflexivity.
  - change (dec_literal 0) with (Value Int32 0).
    rewrite (equal_int32_drift _ x _ Hc x_well_typed same_type Hn E4).
    split; reflexivity.
  - change (dec_literal 4) with (Value Int32 4).
    rewrite (equal_int32_drift _ x _ Hc x_well_typed same_type Hn E5).
    split; reflexivity.
  - change (negate (dec_literal 1)) with (Value Int32 (-1)).
    unfold int32_t in *.
    rewrite (equal_cast_drift _ x _ Hc x_well_typed same_type
               (priority_32 eq_refl) Hn E6).
    split; reflexivity.
Qed.

(** The assertion about the priority sees only the low 32 bits: whatever
    number the header gives [PRIO_NONURGENT], of whatever type, the file
    still builds when these bits are all ones. *)
Theorem priority_is_checked_modulo_2_32
  (h : header) (x : value)
  (h_builds : compile h testbuild = BuildOk)
  (low_bits : num x mod 2 ^ 32 = 0xFFFFFFFF) :
  compile (redefine h PRIO_NONURGENT x) testbuild = BuildOk.
Proof.
  pose proof (proj1 (testbuild_ok_iff h) h_builds)
    as (E1 & E2 & E3 & E4 & E5 & _).
  apply testbuild_ok_iff. cbn [redefine constant_eqb].
  repeat (split; [assumption |]).
  rewrite equal_int32 by apply wrap_in_range.
  cbn [convert num type_of]. apply Z.eqb_eq.
  change (wrap int32_t (-1)) with (-1).
  now apply wrap_int32_minus_one.
Qed.

(** The check does not pin the type of the four constants it compares as
    written: retyping one of them to any integer type, with the same number,
    gives a well-formed header the file still builds against. *)
Theorem types_of_plain_constants_are_free
  (h : header) (c : constant) (t : int_type)
  (h_well_formed : well_formed h)
  (h_builds : compile h testbuild = BuildOk)
  (not_status : c <> MAPI_E_NOT_FOUND)
  (not_priority : c <> PRIO_NONURGENT) :
  well_formed (redefine h c (Value t (num (h c)))) /\
  compile (redefine h c (Value t (num (h c)))) testbuild = BuildOk.
Proof.
  pose proof (proj1 (testbuild_ok_iff h) h_builds)
    as (E1 & E2 & E3 & E4 & E5 & E6).
  pose proof E2 as N2. pose proof E3 as N3.
  pose proof E4 as N4. pose proof E5 as N5.
  apply equal_small in N2; [| apply h_well_formed | cbn; lia].
  apply equal_small in N3; [| apply h_well_formed | cbn; lia].
  apply equal_small in N4; [| apply h_well_formed | cbn; lia].
  apply equal_small in N5; [| apply h_well_formed | cbn; lia].
  assert (S2 : well_typed (Value t 0x1102))
    by (apply small_representable; cbn; lia).
  assert (S3 : well_typed (Value t 0x0070001E))
    by (apply small_representable; cbn; lia).
  assert (S4 : well_typed (Value t 0))
    by (apply small_representable; cbn; lia).
  assert (S5 : well_typed (Value t 4))
    by (apply small_representable; cbn; lia).
  destruct c; try contradiction;
    rewrite ?N2, ?N3, ?N4, ?N5;
    (split;
     [ intros c'; destruct c'; cbn [redefine constant_eqb];
       solve [apply h_well_formed | assumption]
     | apply testbuild_ok_iff; cbn [redefine constant_eqb];
       repeat split; try assumption;
       apply equal_small; solve [assumption | cbn; lia | reflexivity] ]).
Qed.

(** Between 32-bit operands [==] compares bit patterns: two values of 32-bit
    types, signed or unsigned in any mix, compare equal exactly when they are
    congruent modulo [2 ^ 32]. *)
Theorem equal_at_32_bits (a b : value)
  (a_32 : width (type_of a) = 32) (b_32 : width (type_of b) = 32) :
  equal a b = true <-> num a mod 2 ^ 32 = num b mod 2 ^ 32.
Proof.
  unfold equal. cbn [convert num]. rewrite Z.eqb_eq.
  apply wrap_eq_32.
  destruct (type_of a), (type_of b); cbn in *; congruence.
Qed.

(** A hexadecimal literal with bit 31 set and nothing above it is an unsigned
    32-bit number; its cast to [HRESULT] is the negative number [n - 2 ^ 32],
    and casting that back to unsigned 32 bits restores the literal. *)
Theorem failure_status_literal_is_negative (n : Z)
  (bit_31 : 2 ^ 31 <= n < 2 ^ 32) :
  hex_literal n = Value UInt32 n /\
  convert HRESULT (hex_literal n) = Value HRESULT (n - 2 ^ 32) /\
  num (convert HRESULT (hex_literal n)) < 0 /\
  convert UInt32 (convert HRESULT (hex_literal n)) = hex_literal n.
Proof.
  assert (L : hex_literal n = Value UInt32 n).
  { unfold hex_literal. cbn [first_fit].
    assert (R1 : representable Int32 n = false).
    { apply not_true_is_false. rewrite representable_iff.
      cbv [min_value max_value is_signed width]. cbn in *. lia. }
    assert (R2 : representable UInt32 n = true).
    { rewrite representable_iff.
      cbv [min_value max_value is_signed width]. cbn in *. lia. }
    rewrite R1, R2. f_equal. now apply wrap_representable. }
  rewrite L. unfold convert, HRESULT. cbn [num].
  assert (W : wrap Int32 n = n - 2 ^ 32) by by_cases_on_wrap.
  rewrite W.
  repeat split.
  - cbn in *. lia.
  - f_equal. by_cases_on_wrap.
Qed.

(** A conversion to a type at least as wide loses nothing: converting back
    to the original type restores a well-typed value, also across a change of
    signedness. *)
Theorem widening_round_trip (c : value) (t : int_type)
  (c_well_typed : well_typed c)
  (wider : width (type_of c) <= width t) :
  convert (type_of c) (convert t c) = c.
Proof.
  destruct c as [tc n]. unfold well_typed in c_well_typed.
  cbn [type_of num] in *. unfold convert. cbn [num]. f_equal.
  rewrite representable_iff in c_well_typed.
  destruct tc, t; cbn [width] in wider; try lia; by_cases_on_wrap.
Qed.

End Pinning.

(** ** Instances of the results above *)

Lemma testbuild_pins_values_witness :
  well_formed (with_status UInt32 0x8004010F) /\
  compile (with_status UInt32 0x8004010F) testbuild = BuildOk /\
  num (with_status UInt32 0x8004010F MAPI_E_NOT_FOUND) = 0x8004010F.
Proof.
  assert (W : well_formed (with_status UInt32 0x8004010F))
    by (intros c; destruct c; reflexivity).
  assert (B : compile (with_status UInt32 0x8004010F) testbuild = BuildOk)
    by reflexivity.
  pose proof (proj1 (testbuild_pins_values _ W) B) as (E & _).
  exact (conj W (conj B E)).
Defined.

Lemma redefinition_breaks_only_its_own_assertions_witness :
  compile sample_header testbuild = BuildOk /\
  incl
    (diagnostics
       (redefine sample_header TABLE_SORT_CATEG_MAX (Value UInt32 5))
       testbuild)
    (assertions_about testbuild TABLE_SORT_CATEG_MAX).
Proof.
  assert (B : compile sample_header testbuild = BuildOk) by reflexivity.
  exact (conj B
           (proj2 (redefinition_breaks_only_its_own_assertions
                     sample_header testbuild TABLE_SORT_CATEG_MAX
                     (Value UInt32 5) B))).
Defined.

Lemma drift_is_reported_by_its_assertion_witness :
  compile sample_header testbuild = BuildOk /\
  compile (redefine sample_header PRIO_NONURGENT (Value Int32 1)) testbuild =
    BuildFailed (assertions_about testbuild PRIO_NONURGENT).
Proof.
  assert (W : well_formed sample_header)
    by (intros c; destruct c; reflexivity).
  assert (B : compile sample_header testbuild = BuildOk) by reflexivity.
  assert (X : well_typed (Value Int32 1)) by reflexivity.
  assert (T : type_of (Value Int32 1) = type_of (sample_header PRIO_NONURGENT))
    by reflexivity.
  assert (N : num (Value Int32 1) <> num (sample_header PRIO_NONURGENT))
    by (intros E; discriminate E).
  assert (P : PRIO_NONURGENT = PRIO_NONURGENT ->
              width (type_of (Value Int32 1)) = 32)
    by (intros _; reflexivity).
  exact (conj B
           (proj1 (drift_is_reported_by_its_assertion
                     sample_header PRIO_NONURGENT (Value Int32 1)
                     W B X T N P))).
Defined.

Lemma priority_is_checked_modulo_2_32_witness :
  compile sample_header testbuild = BuildOk /\
  well_typed (Value Int64 0xFFFFFFFF) /\
  compile (redefine sample_header PRIO_NONURGENT (Value Int64 0xFFFFFFFF))
    testbuild = BuildOk.
Proof.
  assert (B : compile sample_header testbuild = BuildOk) by reflexivity.
  assert (X : well_typed (Value Int64 0xFFFFFFFF)) by reflexivity.
  assert (L : num (Value Int64 0xFFFFFFFF) mod 2 ^ 32 = 0xFFFFFFFF)
    by reflexivity.
  exact (conj B (conj X
           (priority_is_checked_modulo_2_32 sample_header
              (Value Int64 0xFFFFFFFF) B L))).
Defined.

Lemma types_of_plain_constants_are_free_witness :
  well_formed sample_header /\
  compile sample_header testbuild = BuildOk /\
  compile (redefine sample_header BOOKMARK_BEGINNING (Value Int64 0))
    testbuild = BuildOk.
Proof.
  assert (W : well_formed sample_header)
    by (intros c; destruct c; reflexivity).
  assert (B : compile sample_header testbuild = BuildOk) by reflexivity.
  assert (S : BOOKMARK_BEGINNING <> MAPI_E_NOT_FOUND)
    by (intros E; discriminate E).
  assert (P : BOOKMARK_BEGINNING <> PRIO_NONURGENT)
    by (intros E; discriminate E).
  exact (conj W (conj B
           (proj2 (types_of_plain_constants_are_free
                     sample_header BOOKMARK_BEGINNING Int64 W B S P)))).
Defined.

Lemma equal_at_32_bits_witness :
  equal (Value Int32 (-2147221233)) (Value UInt32 0x8004010F) = true <->
  (-2147221233) mod 2 ^ 32 = 0x8004010F mod 2 ^ 32.
Proof.
  exact (equal_at_32_bits (Value Int32 (-2147221233))
           (Value UInt32 0x8004010F) eq_refl eq_refl).
Defined.

Lemma failure_status_literal_is_negative_witness :
  2 ^ 31 <= 0x8004010F < 2 ^ 32 /\
  convert HRESULT (hex_literal 0x8004010F) =
    Value HRESULT (0x8004010F - 2 ^ 32).
Proof.
  assert (R : 2 ^ 31 <= 0x8004010F < 2 ^ 32) by (cbn; lia).
  exact (conj R (proj1 (proj2 (failure_status_literal_is_negative _ R)))).
Defined.

Lemma widening_round_trip_witness :
  well_typed (Value Int32 (-1)) /\
  convert Int32 (convert UInt64 (Value Int32 (-1))) = Value Int32 (-1).
Proof.
  assert (X : well_typed (Value Int32 (-1))) by reflexivity.
  assert (Wd : width (type_of (Value Int32 (-1))) <= width UInt64)
    by (cbn; lia).
  exact (conj X (widening_round_trip (Value Int32 (-1)) UInt64 X Wd)).
Defined.

(** ** The check as a whole, in numbers *)

Section WholeCheck.

(** What each [static_assert] of the file requires of the number the header
    gives its constant. *)
Lemma assertion_conditions (h : header) (h_well_formed : well_formed h) :
  (holds h (Equal (Name MAPI_E_NOT_FOUND) (CastTo HRESULT (Hex 0x8004010F)))
     = true <->
   num (h MAPI_E_NOT_FOUND) =
     match type_of (h MAPI_E_NOT_FOUND) with
     | Int32 | Int64 => -2147221233
     | UInt32 => 0x8004010F
     | UInt64 => 0xFFFFFFFF8004010F
     end) /\
  (holds h (Equal (Name PT_MV_BINARY) (Hex 0x1102)) = true <->
   num (h PT_MV_BINARY) = 0x1102) /\
  (holds h (Equal (Name PR_CONVERSATION_TOPIC_A) (Hex 0x0070001E)) = true <->
   num (h PR_CONVERSATION_TOPIC_A) = 0x0070001E) /\
  (holds h (Equal (Name BOOKMARK_BEGINNING) (Dec 0)) = true <->
   num (h BOOKMARK_BEGINNING) = 0) /\
  (holds h (Equal (Name TABLE_SORT_CATEG_MAX) (Dec 4)) = true <->
   num (h TABLE_SORT_CATEG_MAX) = 4) /\
  (holds h (Equal (CastTo int32_t (Name PRIO_NONURGENT)) (Minus (Dec 1)))
     = true <->
   num (h PRIO_NONURGENT) mod 2 ^ 32 = 0xFFFFFFFF).
Proof.
  rewrite !holds_Equal. cbn [eval].
  change (convert HRESULT (hex_literal 0x8004010F))
    with (Value Int32 (-2147221233)).
  change (hex_literal 0x1102) with (Value Int32 0x1102).
  change (hex_literal 0x0070001E) with (Value Int32 0x0070001E).
  change (dec_literal 0) with (Value Int32 0).
  change (dec_literal 4) with (Value Int32 4).
  change (negate (dec_literal 1)) with (Value Int32 (-1)).
  repeat split; try (apply equal_small; [apply h_well_formed | cbn; lia]).
  - rewrite equal_int32, Z.eqb_eq by apply h_well_formed. intros E.
    rewrite E. destruct (type_of (h MAPI_E_NOT_FOUND)); reflexivity.
  - rewrite equal_int32, Z.eqb_eq by apply h_well_formed. intros E.
    rewrite E. destruct (type_of (h MAPI_E_NOT_FOUND)); reflexivity.
  - rewrite equal_int32, Z.eqb_eq by apply wrap_in_range.
    intros E. now apply wrap_int32_minus_one.
  - rewrite equal_int32, Z.eqb_eq by apply wrap_in_range.
    intros E. now apply wrap_int32_minus_one.
Qed.

Lemma reported_iff_violated
  (h : header) (tu : list declaration) (e : expr) (P : Prop) :
  In e (assertions tu) -> (holds h e = true <-> P) ->
  In e (diagnostics h tu) <-> ~ P.
Proof.
  intros He HP. rewrite diagnostics_In, <- HP, not_true_iff_false. tauto.
Qed.

(** C1, as the specification words it, does not hold: with the priority
    defined as the 64-bit number 0xFFFFFFFF the header is well formed and the
    constant does not equal -1, the value line 13 expects
    ([PRIO_NONURGENT == -1] is false), yet the file builds, because line 13
    compares the constant only after converting it to [std::int32_t]. *)
Lemma mismatching_priority_still_builds :
  well_formed wide_priority_header /\
  num (wide_priority_header PRIO_NONURGENT) = 0xFFFFFFFF /\
  expected (assertions testbuild) PRIO_NONURGENT = [Minus (Dec 1)] /\
  holds wide_priority_header (Equal (Name PRIO_NONURGENT) (Minus (Dec 1)))
    = false /\
  compile wide_priority_header testbuild = BuildOk /\
  ~ spec_mismatch_fails_build.
Proof.
  assert (W : well_formed wide_priority_header)
    by (intros c; destruct c; reflexivity).
  repeat split; try exact W; try reflexivity.
  intros Spec.
  apply (Spec wide_priority_header PRIO_NONURGENT (Minus (Dec 1)) W).
  - cbn. now left.
  - reflexivity.
  - reflexivity.
Qed.

(** C1, amended: against a well-formed header the file builds exactly when
    the header gives the six constants the numbers the assertions fix: the
    status code 0x8004010F in its type (-2147221233 when signed), 0x1102,
    0x0070001E, 0 and 4 for the four constants compared as written, and for
    the priority a number whose conversion to 32 bits is -1, that is, whose
    low 32 bits are all ones.  Otherwise the build fails: the failure is a
    non-empty list of [static_assert] conditions of the file, and each
    condition is on it exactly when the number of its constant is not the
    one fixed.  Building has no third outcome. *)
Theorem testbuild_succeeds_iff_constants_match
  (h : header) (h_well_formed : well_formed h) :
  (compile h testbuild = BuildOk <->
     num (h MAPI_E_NOT_FOUND) =
       match type_of (h MAPI_E_NOT_FOUND) with
       | Int32 | Int64 => -2147221233
       | UInt32 => 0x8004010F
       | UInt64 => 0xFFFFFFFF8004010F
       end /\
     num (h PT_MV_BINARY) = 0x1102 /\
     num (h PR_CONVERSATION_TOPIC_A) = 0x0070001E /\
     num (h BOOKMARK_BEGINNING) = 0 /\
     num (h TABLE_SORT_CATEG_MAX) = 4 /\
     num (h PRIO_NONURGENT) mod 2 ^ 32 = 0xFFFFFFFF) /\
  (forall failed : list expr,
     compile h testbuild = BuildFailed failed ->
     failed <> [] /\
     incl failed (assertions testbuild) /\
     (In (Equal (Name MAPI_E_NOT_FOUND) (CastTo HRESULT (Hex 0x8004010F)))
         failed <->
      num (h MAPI_E_NOT_FOUND) <>
        match type_of (h MAPI_E_NOT_FOUND) with
        | Int32 | Int64 => -2147221233
        | UInt32 => 0x8004010F
        | UInt64 => 0xFFFFFFFF8004010F
        end) /\
     (In (Equal (Name PT_MV_BINARY) (Hex 0x1102)) failed <->
      num (h PT_MV_BINARY) <> 0x1102) /\
     (In (Equal (Name PR_CONVERSATION_TOPIC_A) (Hex 0x0070001E)) failed <->
      num (h PR_CONVERSATION_TOPIC_A) <> 0x0070001E) /\
     (In (Equal (Name BOOKMARK_BEGINNING) (Dec 0)) failed <->
      num (h BOOKMARK_BEGINNING) <> 0) /\
     (In (Equal (Name TABLE_SORT_CATEG_MAX) (Dec 4)) failed <->
      num (h TABLE_SORT_CATEG_MAX) <> 4) /\
     (In (Equal (CastTo int32_t (Name PRIO_NONURGENT)) (Minus (Dec 1)))
         failed <->
      num (h PRIO_NONURGENT) mod 2 ^ 32 <> 0xFFFFFFFF)) /\
  (compile h testbuild = BuildOk \/
   exists failed : list expr, compile h testbuild = BuildFailed failed).
Proof.
  pose proof (assertion_conditions h h_well_formed)
    as (C1 & C2 & C3 & C4 & C5 & C6).
  split; [| split].
  - rewrite compile_ok_iff.
    cbn [testbuild assertions forallb].
    rewrite !andb_true_iff.
    rewrite C1, C2, C3, C4, C5, C6. intuition auto.
  - intros failed Hfailed.
    destruct (compile_cases h testbuild) as [[_ Hok] | [Hne Hfail]];
      [congruence |].
    assert (failed = diagnostics h testbuild) by congruence. subst failed.
    split; [exact Hne |].
    split.
    + intros e He. apply diagnostics_In in He. exact (proj1 He).
    + repeat (split;
                [apply reported_iff_violated; [cbn; tauto | assumption] |]).
      apply reported_iff_violated; [cbn; tauto | assumption].
  - destruct (compile_cases h testbuild) as [[_ Hok] | [_ Hfail]].
    + now left.
    + right. now exists (diagnostics h testbuild).
Qed.

Lemma testbuild_succeeds_iff_constants_match_witness :
  well_formed drifted_header /\
  compile drifted_header testbuild =
    BuildFailed [Equal (Name TABLE_SORT_CATEG_MAX) (Dec 4)] /\
  num (drifted_header TABLE_SORT_CATEG_MAX) <> 4 /\
  ~ In (Equal (Name BOOKMARK_BEGINNING) (Dec 0))
      [Equal (Name TABLE_SORT_CATEG_MAX) (Dec 4)].
Proof.
  assert (W : well_formed drifted_header)
    by (intros c; destruct c; reflexivity).
  assert (F : compile drifted_header testbuild =
              BuildFailed [Equal (Name TABLE_SORT_CATEG_MAX) (Dec 4)])
    by reflexivity.
  destruct (proj1 (proj2 (testbuild_succeeds_iff_constants_match
                            drifted_header W)) _ F)
    as (_ & _ & _ & _ & _ & B & T & _).
  split; [exact W | split; [exact F | split]].
  - apply T. now left.
  - intros Hin. apply B in Hin. apply Hin. reflexivity.
Defined.

(** C3, as the specification words it, does not hold: the assertion of line
    13 does not compare a named constant with its expected value, it compares
    the constant converted to [std::int32_t]; and the two differ: for the
    64-bit priority 0xFFFFFFFF line 13 holds where [PRIO_NONURGENT == -1]
    does not. *)
Lemma priority_assertion_is_not_name_equals_value :
  ~ Forall spec_name_equals_value (assertions testbuild) /\
  form_of (Equal (CastTo int32_t (Name PRIO_NONURGENT)) (Minus (Dec 1))) =
    Some (PRIO_NONURGENT, Cast int32_t, NegatedLiteral) /\
  holds wide_priority_header
    (Equal (CastTo int32_t (Name PRIO_NONURGENT)) (Minus (Dec 1))) = true /\
  holds wide_priority_header
    (Equal (Name PRIO_NONURGENT) (Minus (Dec 1))) = false.
Proof.
  repeat split; try reflexivity.
  intros All. rewrite Forall_forall in All.
  destruct (All (Equal (CastTo int32_t (Name PRIO_NONURGENT))
                   (Minus (Dec 1)))) as (c & v & E).
  - cbn. tauto.
  - discriminate E.
Qed.

Ltac fails_alone c :=
  exists (redefine sample_header c (Value Int32 7));
  split; [intros k; destruct k; reflexivity | reflexivity].

(** C3, amended: the file holds exactly six assertions, each an [==]
    comparison of one named constant with an expected value written from a
    literal, no constant twice.  Lines 9 to 12 have the form [C == V] with
    [V] a literal; line 8 has the form [C == (HRESULT)V]; line 13 has the
    form [static_cast<std::int32_t>(C) == -V], which compares the converted
    constant.  They are evaluated when the file is built: against the sample
    header all hold, and each of them, alone, can fail the build.  Besides
    its two includes the file has nothing else. *)
Theorem six_assertions_and_their_forms :
  List.length (assertions testbuild) = 6%nat /\
  map form_of (assertions testbuild) =
    [ Some (MAPI_E_NOT_FOUND, Bare, CastLiteral HRESULT);
      Some (PT_MV_BINARY, Bare, Literal);
      Some (PR_CONVERSATION_TOPIC_A, Bare, Literal);
      Some (BOOKMARK_BEGINNING, Bare, Literal);
      Some (TABLE_SORT_CATEG_MAX, Bare, Literal);
      Some (PRIO_NONURGENT, Cast int32_t, NegatedLiteral) ] /\
  NoDup (checked_constants testbuild) /\
  testbuild =
    [Include "MAPIConstants.h"; Include "<cstdint>"]
      ++ map StaticAssert (assertions testbuild) /\
  (exists h : header, well_formed h /\ compile h testbuild = BuildOk) /\
  Forall
    (fun e => exists h : header,
                well_formed h /\ compile h testbuild = BuildFailed [e])
    (assertions testbuild).
Proof.
  split; [reflexivity |].
  split; [reflexivity |].
  split; [cbn; repeat constructor; cbn; intuition discriminate |].
  split; [reflexivity |].
  split.
  - exists sample_header.
    split; [intros k; destruct k; reflexivity | reflexivity].
  - cbn [testbuild assertions].
    repeat apply Forall_cons; try apply Forall_nil.
    + fails_alone MAPI_E_NOT_FOUND.
    + fails_alone PT_MV_BINARY.
    + fails_alone PR_CONVERSATION_TOPIC_A.
    + fails_alone BOOKMARK_BEGINNING.
    + fails_alone TABLE_SORT_CATEG_MAX.
    + fails_alone PRIO_NONURGENT.
Qed.

End WholeCheck.
